(** * Study Buddy backend: persistence helpers and request handlers

    A shallow embedding of [database.py] and [main.py].

    The module-level handle [db] of [database.py] is bound once, at import
    time, and is [None] unless both DATABASE_URL and DATABASE_NAME are set.
    This development covers the processes in which it is [None]: every
    [if db is None] test takes its first branch, and the branches that
    delegate to pymongo are outside the embedding. *)

From Stdlib Require Import Ascii.
From stdpp Require Import gmap strings list fin_maps pretty.

Local Open Scope string_scope.
Local Open Scope list_scope.
Local Open Scope Z_scope.

(** ** Python values

    The values the handlers put into documents and responses: [None], ints,
    strings, datetimes (microseconds since the epoch), lists and dicts.  A
    dict is kept as its items in insertion order, as Python keeps it. *)

#[local] Unset Elimination Schemes.
Inductive value : Type :=
| VNone
| VInt (n : Z)
| VStr (s : string)
| VTime (t : Z)
| VList (l : list value)
| VDict (d : list (string * value)).
#[local] Set Elimination Schemes.

Abbreviation doc := (list (string * value)).

(** [d.get(k)] as an option, then with Python's default [None]. *)
Fixpoint dict_lookup (d : doc) (k : string) : option value :=
  match d with
  | [] => None
  | (k', v) :: d' => if decide (k' = k) then Some v else dict_lookup d' k
  end.

Definition dict_get (d : doc) (k : string) : value :=
  default VNone (dict_lookup d k).

(** [d[k] = v]: overwrite in place when the key is there, else add it last. *)
Fixpoint dict_set (d : doc) (k : string) (v : value) : doc :=
  match d with
  | [] => [(k, v)]
  | (k', v') :: d' =>
      if decide (k' = k) then (k', v) :: d' else (k', v') :: dict_set d' k v
  end.

(** Python's [==] on these values: structural, except that two dicts are
    equal when they hold the same keys with equal values, in any order. *)
Fixpoint py_eq (a b : value) {struct a} : bool :=
  match a, b with
  | VNone, VNone => true
  | VInt x, VInt y => bool_decide (x = y)
  | VStr x, VStr y => bool_decide (x = y)
  | VTime x, VTime y => bool_decide (x = y)
  | VList x, VList y =>
      (fix go (x y : list value) {struct x} : bool :=
         match x, y with
         | [], [] => true
         | a' :: x', b' :: y' => py_eq a' b' && go x' y'
         | _, _ => false
         end) x y
  | VDict x, VDict y =>
      bool_decide (length x = length y) &&
      (fix go (x : doc) {struct x} : bool :=
         match x with
         | [] => true
         | p :: x' =>
             match dict_lookup y (fst p) with
             | Some v' => py_eq (snd p) v'
             | None => false
             end && go x'
         end) x
  | _, _ => false
  end.

Definition py_ne (a b : value) : bool := negb (py_eq a b).

(** Truth value of an [Optional[int]] and of an [Optional[str]]. *)
Definition truthy_int (n : option Z) : bool :=
  match n with
  | Some n => negb (bool_decide (n = 0))
  | None => false
  end.

Definition truthy_str (s : option string) : bool :=
  match s with
  | Some s => negb (bool_decide (s = ""))
  | None => false
  end.

(** [s or d] for an [Optional[str]]. *)
Definition str_or (s : option string) (d : string) : string :=
  match s with
  | Some s => if bool_decide (s = "") then d else s
  | None => d
  end.

Definition opt_str (s : option string) : value :=
  match s with
  | Some s => VStr s
  | None => VNone
  end.

(** [l[:n]] for an int [n]: a negative [n] counts from the end. *)
Definition py_slice_to {A} (l : list A) (n : Z) : list A :=
  if bool_decide (0 <= n) then take (Z.to_nat n) l
  else take (Z.to_nat (Z.of_nat (length l) + n)) l.

(** [range(n)]. *)
Definition py_range (n : Z) : list Z :=
  Z.of_nat <$> seq 0 (Z.to_nat n).

(** [f"{n}"] for an int. *)
Definition str_int (n : Z) : string := pretty n.

(** ** The process state

    [_memory_store] is the module-level dict of [database.py].  The system
    clock is a sequence of readings (microseconds since the epoch, UTC) of
    which [ticks] have been taken; the environment is what [os.getenv]
    reads. *)

Record world : Type := World {
  _memory_store : gmap string (list doc);
  clock : nat → Z;
  ticks : nat;
  environ : gmap string string
}.

Definition set_store (m : gmap string (list doc)) (w : world) : world :=
  {| _memory_store := m; clock := clock w; ticks := ticks w;
     environ := environ w |}.

Definition tick (w : world) : world :=
  {| _memory_store := _memory_store w; clock := clock w; ticks := S (ticks w);
     environ := environ w |}.

(** [datetime.now(timezone.utc)]. *)
Definition _now (w : world) : value * world :=
  (VTime (clock w (ticks w)), tick w).

(** [int(datetime.now().timestamp()*1000)]: the reading in milliseconds,
    truncated towards zero.  The code goes through a float, whose rounding
    can make the result one millisecond lower for far instants (from 2038
    on); this exact quotient leaves that rounding out. *)
Definition now_millis (w : world) : Z * world :=
  (Z.quot (clock w (ticks w)) 1000, tick w).

(** The list stored for a collection, [_memory_store.get(c, [])]. *)
Definition stored (w : world) (c : string) : list doc :=
  default [] (_memory_store w !! c).

(** ** database.py *)

Definition create_document (collection_name : string) (data : doc)
    (w : world) : string * world :=
  let data_dict := data in
  let '(t, w) := _now w in
  let data_dict := dict_set data_dict "created_at" t in
  let '(t, w) := _now w in
  let data_dict := dict_set data_dict "updated_at" t in
  let coll := stored w collection_name in
  let '(ms, w) := now_millis w in
  let pseudo_id :=
    "demo-" +:+ collection_name +:+ "-" +:+ str_int ms +:+ "-"
      +:+ str_int (Z.of_nat (length coll) + 1) in
  let data_dict := dict_set data_dict "_id" (VStr pseudo_id) in
  (pseudo_id,
   set_store (<[collection_name := coll ++ [data_dict]]> (_memory_store w)) w).

Global Arguments create_document : simpl never.

Definition _matches (filter_dict : doc) (d : doc) : bool :=
  forallb (λ kv, negb (py_ne (dict_get d (fst kv)) (snd kv))) filter_dict.

Definition get_documents (collection_name : string) (filter_dict : option doc)
    (limit : option Z) (w : world) : list doc :=
  let filter_dict := default [] filter_dict in
  let coll := stored w collection_name in
  let results := filter (λ d, _matches filter_dict d = true) coll in
  if truthy_int limit then py_slice_to results (default 0 limit)
  else results.

(** ** main.py

    Strings are byte strings; of the whitespace [str.strip()] removes, the
    ASCII part is modelled: tab to carriage return, the separators 28 to 31,
    space.  Unicode whitespace beyond ASCII (U+00A0, U+3000 and the like),
    which Python strips too, is left in place here. *)

Definition py_isspace (c : ascii) : bool :=
  let n := Z.of_N (N_of_ascii c) in
  bool_decide (9 <= n <= 13) || bool_decide (28 <= n <= 32).

Fixpoint py_lstrip (s : string) : string :=
  match s with
  | EmptyString => EmptyString
  | String c s' => if py_isspace c then py_lstrip s' else s
  end.

Definition py_strip (s : string) : string :=
  String.rev (py_lstrip (String.rev (py_lstrip s))).

(** [for x in xs: acc.append(body(x))]. *)
Definition for_append {A B} (body : A → B) (xs : list A) (acc : list B)
    : list B :=
  foldl (λ acc x, acc ++ [body x]) acc xs.

(** [os.getenv(k)] used as a condition. *)
Definition getenv_truthy (w : world) (k : string) : bool :=
  truthy_str (environ w !! k).

Definition read_root (w : world) : value * world :=
  (VDict [("message", VStr "Study Buddy Backend running")], w).

Definition test_database (w : world) : value * world :=
  let response :=
    [("backend", VStr "✅ Running");
     ("database", VStr "❌ Not Available");
     ("database_url", VNone);
     ("database_name", VNone);
     ("connection_status", VStr "Not Connected");
     ("collections", VList [])] in
  let response :=
    dict_set response "database" (VStr "⚠️  Available but not initialized") in
  let response :=
    dict_set response "database_url"
      (VStr (if getenv_truthy w "DATABASE_URL" then "✅ Set" else "❌ Not Set")) in
  let response :=
    dict_set response "database_name"
      (VStr (if getenv_truthy w "DATABASE_NAME" then "✅ Set" else "❌ Not Set")) in
  (VDict response, w).

Inductive provider_t : Type := Email | Phone | Google.

Definition provider_str (p : provider_t) : string :=
  match p with
  | Email => "email"
  | Phone => "phone"
  | Google => "google"
  end.

Module LoginRequest.
Record t : Type := Make {
  provider : provider_t;
  identifier : string;
  name : option string
}.
End LoginRequest.

Definition login (req : LoginRequest.t) (w : world) : value * world :=
  let user :=
    [("name", VStr (str_or (LoginRequest.name req) "Student"));
     ("email",
      if bool_decide (provider_str (LoginRequest.provider req) = "email")
      then VStr (LoginRequest.identifier req) else VNone);
     ("phone",
      if bool_decide (provider_str (LoginRequest.provider req) = "phone")
      then VStr (LoginRequest.identifier req) else VNone);
     ("provider", VStr (provider_str (LoginRequest.provider req)));
     ("preferred_language", VStr "English")] in
  let '(user_id, w) := create_document "user" user w in
  (VDict [("user_id", VStr user_id); ("message", VStr "Logged in")], w).

Module ProfileSetup.
Record t : Type := Make {
  user_id : string;
  grade : option string;
  subjects : list string;
  study_goal : option string;
  preferred_language : option string;
  daily_study_minutes : Z
}.
End ProfileSetup.

Definition setup_profile (data : ProfileSetup.t) (w : world) : value * world :=
  let profile :=
    [("user_id", VStr (ProfileSetup.user_id data));
     ("grade", opt_str (ProfileSetup.grade data));
     ("subjects", VList (VStr <$> ProfileSetup.subjects data));
     ("study_goal", opt_str (ProfileSetup.study_goal data));
     ("daily_study_minutes", VInt (ProfileSetup.daily_study_minutes data))] in
  let '(pid, w) := create_document "profile" profile w in
  (VDict [("profile_id", VStr pid)], w).

Inductive action_t : Type := Simplify | Explain10 | Flashcards | Quiz.

Module ChatRequest.
Record t : Type := Make {
  user_id : string;
  message : string;
  subject : option string;
  action : option action_t
}.
End ChatRequest.

(** The last two statements of [chat], reached by the branches that only
    build [answer]. *)
Definition chat_doubt (req : ChatRequest.t) (msg answer : string) (w : world)
    : value * world :=
  let '(did, w) :=
    create_document "doubt"
      [("user_id", VStr (ChatRequest.user_id req)); ("source", VStr "text");
       ("prompt", VStr msg); ("answer", VStr answer)] w in
  (VDict [("type", VStr "answer"); ("doubt_id", VStr did);
          ("answer", VStr answer)], w).

Definition chat (req : ChatRequest.t) (w : world) : value * world :=
  let msg := py_strip (ChatRequest.message req) in
  match ChatRequest.action req with
  | Some Explain10 =>
      chat_doubt req msg
        ("Imagine you are 10: " +:+ msg +:+
         " means we break it into super simple ideas and examples so it's easy to get.")
        w
  | Some Simplify =>
      chat_doubt req msg
        ("Simplified: " +:+ msg +:+ " in plain words with fewer steps.") w
  | Some Flashcards =>
      let items :=
        [VDict [("question", VStr ("What is: " +:+ msg +:+ "?"));
                ("answer", VStr "Definition in 1-2 lines")];
         VDict [("question", VStr ("Why is " +:+ msg +:+ " important?"));
                ("answer", VStr "Key reason")]] in
      let '(fid, w) :=
        create_document "flashcard"
          [("user_id", VStr (ChatRequest.user_id req)); ("topic", VStr msg);
           ("items", VList items)] w in
      (VDict [("type", VStr "flashcards"); ("flashcard_id", VStr fid);
              ("items", VList items)], w)
  | Some Quiz =>
      let questions :=
        [VDict [("question", VStr ("Explain " +:+ msg +:+ " in one line"));
                ("type", VStr "short")];
         VDict [("question", VStr ("Which is true about " +:+ msg +:+ "?"));
                ("type", VStr "mcq");
                ("options", VList [VStr "A"; VStr "B"; VStr "C"; VStr "D"]);
                ("answer", VStr "A")]] in
      let '(qid, w) :=
        create_document "quiz"
          [("user_id", VStr (ChatRequest.user_id req)); ("topic", VStr msg);
           ("questions", VList questions)] w in
      (VDict [("type", VStr "quiz"); ("quiz_id", VStr qid);
              ("questions", VList questions)], w)
  | None =>
      chat_doubt req msg
        ("Answer for '" +:+ msg +:+
         "': here's a clear explanation with steps where needed.") w
  end.

Definition photo_doubt (user_id : string) (file_filename : option string)
    (w : world) : value * world :=
  let filename := str_or file_filename "image.jpg" in
  let ocr_text := "Extracted text from " +:+ filename in
  let answer :=
    "Solution based on OCR: " +:+ ocr_text +:+
    ". If unclear, please retake a brighter photo." in
  let '(did, w) :=
    create_document "doubt"
      [("user_id", VStr user_id); ("source", VStr "image");
       ("image_url", VStr filename); ("ocr_text", VStr ocr_text);
       ("answer", VStr answer)] w in
  (VDict [("doubt_id", VStr did); ("ocr_text", VStr ocr_text);
          ("answer", VStr answer)], w).

Module FlashcardRequest.
Record t : Type := Make {
  user_id : string;
  subject : option string;
  topic : option string;
  text : option string;
  count : Z
}.
End FlashcardRequest.

Definition flashcard_items (req : FlashcardRequest.t) : list value :=
  for_append
    (λ i, VDict [("question",
                  VStr ("Q" +:+ str_int (i + 1) +:+ " about " +:+
                        str_or (FlashcardRequest.topic req) "topic"));
                 ("answer", VStr "Concise answer")])
    (py_range (Z.max 1 (Z.min (FlashcardRequest.count req) 20))) [].

Definition generate_flashcards (req : FlashcardRequest.t) (w : world)
    : value * world :=
  let items := flashcard_items req in
  let '(fid, w) :=
    create_document "flashcard"
      [("user_id", VStr (FlashcardRequest.user_id req));
       ("subject", opt_str (FlashcardRequest.subject req));
       ("topic", opt_str (FlashcardRequest.topic req));
       ("items", VList items)] w in
  (VDict [("flashcard_id", VStr fid); ("items", VList items)], w).

Module QuizRequest.
Record t : Type := Make {
  user_id : string;
  topic : string;
  count : Z
}.
(** [count: Literal[5, 10]]: what request validation lets through. *)
Definition valid (req : t) : Prop := count req = 5 ∨ count req = 10.
End QuizRequest.

Definition quiz_question (topic : string) (i : Z) : value :=
  if bool_decide (i `mod` 2 = 0) then
    VDict [("question", VStr ("MCQ on " +:+ topic +:+ " #" +:+ str_int (i + 1)));
           ("type", VStr "mcq");
           ("options", VList [VStr "A"; VStr "B"; VStr "C"; VStr "D"]);
           ("answer", VStr "A")]
  else
    VDict [("question",
            VStr ("Short answer on " +:+ topic +:+ " #" +:+ str_int (i + 1)));
           ("type", VStr "short")].

Definition quiz_questions (req : QuizRequest.t) : list value :=
  for_append (quiz_question (QuizRequest.topic req))
    (py_range (QuizRequest.count req)) [].

Definition generate_quiz (req : QuizRequest.t) (w : world) : value * world :=
  let questions := quiz_questions req in
  let '(qid, w) :=
    create_document "quiz"
      [("user_id", VStr (QuizRequest.user_id req));
       ("topic", VStr (QuizRequest.topic req));
       ("questions", VList questions)] w in
  (VDict [("quiz_id", VStr qid); ("questions", VList questions)], w).

Module PlanRequest.
Record t : Type := Make {
  user_id : string;
  exam_date : string;
  daily_minutes : Z;
  subjects : list string
}.
End PlanRequest.

Definition plan_task (per_day : Z) (idx : nat) (subject : string) : value :=
  VDict [("date", VStr ("D+" +:+ str_int (Z.of_nat idx + 1)));
         ("subject", VStr subject);
         ("topic", VStr ("Core concepts " +:+ str_int (Z.of_nat idx + 1)));
         ("minutes", VInt per_day)].

Definition plan_tasks (req : PlanRequest.t) : list value :=
  let per_day :=
    Z.max 1 (PlanRequest.daily_minutes req
             `div` Z.max 1 (Z.of_nat (length (PlanRequest.subjects req)))) in
  for_append (λ p, plan_task per_day (fst p) (snd p))
    (imap (λ idx subject, (idx, subject)) (PlanRequest.subjects req)) [].

Definition create_plan (req : PlanRequest.t) (w : world) : value * world :=
  let tasks := plan_tasks req in
  let '(pid, w) :=
    create_document "studyplan"
      [("user_id", VStr (PlanRequest.user_id req));
       ("exam_date", VStr (PlanRequest.exam_date req));
       ("daily_minutes", VInt (PlanRequest.daily_minutes req));
       ("subjects", VList (VStr <$> PlanRequest.subjects req));
       ("tasks", VList tasks)] w in
  (VDict [("plan_id", VStr pid); ("tasks", VList tasks)], w).

Module SummaryRequest.
Record t : Type := Make {
  user_id : string;
  subject : option string;
  text : string
}.
End SummaryRequest.

Definition summarize (req : SummaryRequest.t) (w : world) : value * world :=
  let bullets :=
    [VStr "Key point 1"; VStr "Key point 2"; VStr "Key point 3";
     VStr "Key point 4"; VStr "Key point 5"] in
  let explanation :=
    "Short explanation combining the key points in simple language." in
  let '(sid, w) :=
    create_document "notesummary"
      [("user_id", VStr (SummaryRequest.user_id req));
       ("subject", opt_str (SummaryRequest.subject req));
       ("text", VStr (SummaryRequest.text req));
       ("bullets", VList bullets);
       ("explanation", VStr explanation)] w in
  (VDict [("summary_id", VStr sid); ("bullets", VList bullets);
          ("explanation", VStr explanation)], w).

Definition library (user_id : string) (w : world) : value * world :=
  let by_user := Some [("user_id", VStr user_id)] in
  let recent_doubts := get_documents "doubt" by_user (Some 10) w in
  let recent_flash := get_documents "flashcard" by_user (Some 10) w in
  let recent_quiz := get_documents "quiz" by_user (Some 10) w in
  let recent_plans := get_documents "studyplan" by_user (Some 5) w in
  let recent_summaries := get_documents "notesummary" by_user (Some 10) w in
  (VDict [("recent_doubts", VList (VDict <$> recent_doubts));
          ("flashcards", VList (VDict <$> recent_flash));
          ("quizzes", VList (VDict <$> recent_quiz));
          ("plans", VList (VDict <$> recent_plans));
          ("summaries", VList (VDict <$> recent_summaries))], w).

(** The routes of the application, and the dispatch of one request. *)
Inductive request : Type :=
| GetRoot
| GetTest
| PostLogin (req : LoginRequest.t)
| PostProfileSetup (data : ProfileSetup.t)
| PostChat (req : ChatRequest.t)
| PostPhotoDoubt (user_id : string) (file_filename : option string)
| PostFlashcards (req : FlashcardRequest.t)
| PostQuiz (req : QuizRequest.t)
| PostPlanner (req : PlanRequest.t)
| PostSummary (req : SummaryRequest.t)
| GetLibrary (user_id : string).

Definition handle (r : request) (w : world) : value * world :=
  match r with
  | GetRoot => read_root w
  | GetTest => test_database w
  | PostLogin req => login req w
  | PostProfileSetup data => setup_profile data w
  | PostChat req => chat req w
  | PostPhotoDoubt user_id file_filename => photo_doubt user_id file_filename w
  | PostFlashcards req => generate_flashcards req w
  | PostQuiz req => generate_quiz req w
  | PostPlanner req => create_plan req w
  | PostSummary req => summarize req w
  | GetLibrary user_id => library user_id w
  end.

(** Requests served one after the other. *)
Fixpoint serve (rs : list request) (w : world) : list value * world :=
  match rs with
  | [] => ([], w)
  | r :: rs' =>
      let '(resp, w) := handle r w in
      let '(resps, w) := serve rs' w in
      (resp :: resps, w)
  end.

(** Create calls made one after the other; the ids come back in order. *)
Fixpoint create_all (calls : list (string * doc)) (w : world)
    : list string * world :=
  match calls with
  | [] => ([], w)
  | (c, data) :: calls' =>
      let '(i, w) := create_document c data w in
      let '(ids, w) := create_all calls' w in
      (i :: ids, w)
  end.

(** ** Reading responses and records *)

Definition as_list (v : value) : list value :=
  match v with
  | VList l => l
  | _ => []
  end.

Definition field (v : value) (k : string) : value :=
  match v with
  | VDict d => dict_get d k
  | _ => VNone
  end.

(** How many entries of a list carry [t] under the key ["type"]. *)
Definition count_type (t : string) (qs : list value) : nat :=
  length (filter (λ q, py_eq (field q "type") (VStr t) = true) qs).

(** ** The claims about [find], in the specification's words *)

(** The stored records of a collection that pass the filter. *)
Definition matching (w : world) (c : string) (f : option doc) : list doc :=
  filter (λ d, _matches (default [] f) d = true) (stored w c).

(** "never returns more than N records, and returns fewer only if fewer
    match". *)
Definition limit_respected (w : world) (c : string) (f : option doc) (N : Z)
    : Prop :=
  Z.of_nat (length (get_documents c f (Some N) w)) <= N ∧
  (Z.of_nat (length (get_documents c f (Some N) w)) < N →
   Z.of_nat (length (matching w c f)) < N).

(** "every filter key is present and equal to the filter value". *)
Definition present_and_equal (f d : doc) : bool :=
  forallb (λ kv, match dict_lookup d (fst kv) with
                 | Some x => py_eq x (snd kv)
                 | None => false
                 end) f.

(** The same, with a key the record lacks read as [None]. *)
Definition equal_absent_as_none (f d : doc) : bool :=
  forallb (λ kv, match dict_lookup d (fst kv) with
                 | Some x => py_eq x (snd kv)
                 | None => py_eq VNone (snd kv)
                 end) f.

(** The identifier a call returns and the record it stores. *)
Definition new_id (c : string) (w : world) : string :=
  "demo-" +:+ c +:+ "-"
    +:+ str_int (Z.quot (clock w (S (S (ticks w)))) 1000) +:+ "-"
    +:+ str_int (Z.of_nat (length (stored w c)) + 1).

Definition new_record (c : string) (data : doc) (w : world) : doc :=
  dict_set
    (dict_set
       (dict_set data "created_at" (VTime (clock w (ticks w))))
       "updated_at" (VTime (clock w (S (ticks w)))))
    "_id" (VStr (new_id c w)).

(** One record added at the end of collection [c], all else as it was. *)
Definition creates_one_in (c : string) (w w' : world) : Prop :=
  (∃ rec, stored w' c = stored w c ++ [rec]) ∧
  ∀ c', c' ≠ c → _memory_store w' !! c' = _memory_store w !! c'.

(** What [find] returns under the reading [present_and_equal]. *)
Definition find_claimed (w : world) (c : string) (f : option doc) : list doc :=
  filter (λ d, present_and_equal (default [] f) d = true) (stored w c).

(** "demo-<collection>-<epoch-millis>-<sequence-within-collection>". *)
Definition id_shape (c : string) (millis sequence : Z) : string :=
  "demo-" +:+ c +:+ "-" +:+ str_int millis +:+ "-" +:+ str_int sequence.

Global Arguments id_shape : simpl never.

(** A string without the character ["-"]. *)
Fixpoint no_dash (s : string) : Prop :=
  match s with
  | EmptyString => True
  | String a s' => a ≠ "-"%char ∧ no_dash s'
  end.

(** ** Sample states *)

(** A fresh process whose clock advances by one microsecond per reading. *)
Definition fresh : world :=
  {| _memory_store := ∅;
     clock := λ n, 1700000000000000 + Z.of_nat n;
     ticks := 0;
     environ := ∅ |}.

(** The state after one chat request for flashcards. *)
Definition after_chat_flashcards : world :=
  (chat (ChatRequest.Make "u1" "photosynthesis" None (Some Flashcards))
     fresh).2.

(** The state after one text doubt. *)
Definition after_doubt : world :=
  (chat (ChatRequest.Make "u1" "what is osmosis" None None) fresh).2.

(** ** Routes, and what each writes and answers *)

(** The collection a request adds a document to, if any. *)
Definition target_collection (r : request) : option string :=
  match r with
  | GetRoot | GetTest | GetLibrary _ => None
  | PostLogin _ => Some "user"
  | PostProfileSetup _ => Some "profile"
  | PostChat req =>
      match ChatRequest.action req with
      | Some Flashcards => Some "flashcard"
      | Some Quiz => Some "quiz"
      | Some Simplify | Some Explain10 | None => Some "doubt"
      end
  | PostPhotoDoubt _ _ => Some "doubt"
  | PostFlashcards _ => Some "flashcard"
  | PostQuiz _ => Some "quiz"
  | PostPlanner _ => Some "studyplan"
  | PostSummary _ => Some "notesummary"
  end.

(** The key under which the response carries the new document's id. *)
Definition id_key (r : request) : string :=
  match r with
  | GetRoot | GetTest | GetLibrary _ => ""
  | PostLogin _ => "user_id"
  | PostProfileSetup _ => "profile_id"
  | PostChat req =>
      match ChatRequest.action req with
      | Some Flashcards => "flashcard_id"
      | Some Quiz => "quiz_id"
      | Some Simplify | Some Explain10 | None => "doubt_id"
      end
  | PostPhotoDoubt _ _ => "doubt_id"
  | PostFlashcards _ => "flashcard_id"
  | PostQuiz _ => "quiz_id"
  | PostPlanner _ => "plan_id"
  | PostSummary _ => "summary_id"
  end.

(** The [user_id] a request carries, if it has one. *)
Definition request_user (r : request) : option string :=
  match r with
  | GetRoot | GetTest | PostLogin _ => None
  | PostProfileSetup data => Some (ProfileSetup.user_id data)
  | PostChat req => Some (ChatRequest.user_id req)
  | PostPhotoDoubt user_id _ => Some user_id
  | PostFlashcards req => Some (FlashcardRequest.user_id req)
  | PostQuiz req => Some (QuizRequest.user_id req)
  | PostPlanner req => Some (PlanRequest.user_id req)
  | PostSummary req => Some (SummaryRequest.user_id req)
  | GetLibrary user_id => Some user_id
  end.

(** The sections of the library response: key, collection read, cap. *)
Definition library_sections : list (string * string * Z) :=
  [("recent_doubts", "doubt", 10); ("flashcards", "flashcard", 10);
   ("quizzes", "quiz", 10); ("plans", "studyplan", 5);
   ("summaries", "notesummary", 10)].

(** The filter [{"user_id": user_id}] of [library]. *)
Definition by_user (user_id : string) : option doc :=
  Some [("user_id", VStr user_id)].

(** Every record sits in its collection at the position its id counts:
    the record at index [i] of collection [c] has an [_id] of the shape
    demo-[c]-millis-[i+1]. *)
Definition ids_wf (w : world) : Prop :=
  ∀ c (i : nat) d,
    stored w c !! i = Some d →
    ∃ ms, dict_lookup d "_id" = Some (VStr (id_shape c ms (Z.of_nat i + 1))).

(** A state with an empty store. *)
Definition empty_store (w : world) : Prop := _memory_store w = ∅.

(** Ten text doubts of one user, then the state they leave. *)
Definition ten_doubts : list request :=
  replicate 10 (PostChat (ChatRequest.Make "u1" "why is the sky blue" None None)).

Definition after_ten_doubts : world := (serve ten_doubts fresh).2.

(** The minutes of a task, and of the tasks of a plan together. *)
Definition task_minutes (t : value) : Z :=
  match field t "minutes" with
  | VInt n => n
  | _ => 0
  end.

Definition total_minutes (tasks : list value) : Z :=
  foldr (λ t acc, task_minutes t + acc) 0 tasks.

(** A request for three flashcards about cells. *)
Definition three_cards : FlashcardRequest.t :=
  FlashcardRequest.Make "u1" None (Some "cells") None 3.

(** * Properties *)

(** ** Dictionaries and loops *)

Lemma dict_lookup_set_eq d k v : dict_lookup (dict_set d k v) k = Some v.
Proof.
  induction d as [|[k' v'] d IH]; simpl.
  - by rewrite decide_True.
  - destruct (decide (k' = k)) as [->|Hne]; simpl.
    + by rewrite decide_True.
    + by rewrite decide_False.
Qed.

Lemma dict_lookup_set_ne d k k' v :
  k ≠ k' → dict_lookup (dict_set d k v) k' = dict_lookup d k'.
Proof.
  intros Hne. induction d as [|[k0 v0] d IH]; simpl.
  - by rewrite decide_False.
  - destruct (decide (k0 = k)) as [->|Hk]; simpl.
    + by rewrite !decide_False.
    + by rewrite IH.
Qed.

Lemma for_append_fmap {A B} (body : A → B) xs acc :
  for_append body xs acc = acc ++ (body <$> xs).
Proof.
  unfold for_append. revert acc.
  induction xs as [|x xs IH]; intros acc; simpl.
  - by rewrite app_nil_r.
  - by rewrite IH, <-app_assoc.
Qed.

Lemma py_range_length n : length (py_range n) = Z.to_nat n.
Proof. unfold py_range. by rewrite length_fmap, length_seq. Qed.

Lemma py_range_lookup n (i : nat) :
  (i < Z.to_nat n)%nat → py_range n !! i = Some (Z.of_nat i).
Proof.
  intros Hi. unfold py_range.
  by rewrite list_lookup_fmap, lookup_seq_lt.
Qed.

(** ** The store under [create_document] *)

Lemma stored_set_store_eq m w c l : stored (set_store (<[c:=l]> m) w) c = l.
Proof. unfold stored. simpl. by rewrite lookup_insert_eq. Qed.

Lemma create_document_eq c data w :
  create_document c data w =
  (new_id c w,
   set_store (<[c := stored w c ++ [new_record c data w]]> (_memory_store w))
     (tick (tick (tick w)))).
Proof. reflexivity. Qed.

Lemma create_document_stored c data w :
  stored (create_document c data w).2 c = stored w c ++ [new_record c data w].
Proof. rewrite create_document_eq. apply stored_set_store_eq. Qed.

Lemma create_document_other c c' data w :
  c ≠ c' →
  _memory_store (create_document c data w).2 !! c' = _memory_store w !! c'.
Proof.
  intros Hne. rewrite create_document_eq. simpl. by rewrite lookup_insert_ne.
Qed.

Lemma create_document_stored_other c c' data w :
  c ≠ c' → stored (create_document c data w).2 c' = stored w c'.
Proof. intros Hne. unfold stored. by rewrite create_document_other. Qed.

Lemma create_document_prefix c data w c' :
  stored w c' `prefix_of` stored (create_document c data w).2 c'.
Proof.
  destruct (decide (c = c')) as [<-|Hne].
  - rewrite create_document_stored. by apply prefix_app_r.
  - by rewrite create_document_stored_other.
Qed.

(** Name the [create_document] call of a handler and split its result. *)
Local Ltac one_create :=
  lazymatch goal with
  | |- context [create_document ?c ?d ?w] =>
      exists c, d; destruct (create_document c d w); reflexivity
  end.

(** What a request does to the state: nothing, or one [create_document]. *)
Lemma handle_effect r w :
  (handle r w).2 = w ∨ ∃ c data, (handle r w).2 = (create_document c data w).2.
Proof.
  destruct r as [| |req|data|req|u f|req|req|req|req|u];
    unfold handle, login, setup_profile, chat, chat_doubt, photo_doubt,
      generate_flashcards, generate_quiz, create_plan, summarize.
  1, 2, 11: by left.
  all: right.
  3: destruct (ChatRequest.action req) as [[]|].
  all: one_create.
Qed.

Lemma create_document_creates_one c data w :
  creates_one_in c w (create_document c data w).2.
Proof.
  split.
  - eexists. apply create_document_stored.
  - intros c' Hne. by apply create_document_other.
Qed.

Lemma creates_one_in_stored c c' w w' :
  creates_one_in c w w' → c' ≠ c → stored w' c' = stored w c'.
Proof. intros [_ H] Hne. unfold stored. by rewrite H. Qed.

Lemma handle_prefix r w c : stored w c `prefix_of` stored (handle r w).2 c.
Proof.
  destruct (handle_effect r w) as [->|(c0 & data & ->)]; [done|].
  apply create_document_prefix.
Qed.

Lemma serve_prefix rs w c : stored w c `prefix_of` stored (serve rs w).2 c.
Proof.
  revert w. induction rs as [|r rs IH]; intros w; simpl; [done|].
  pose proof (handle_prefix r w c) as Hr.
  destruct (handle r w) as [resp w1]. specialize (IH w1).
  destruct (serve rs w1) as [resps w2]. simpl in *. by etrans.
Qed.

(** C9: in fallback mode a create call adds exactly one record at the end of
    the named collection's list and leaves the records already there, and
    every other collection, as they were; and no request the application
    serves, nor any sequence of them, removes or rewrites a stored record:
    what a collection held before is a prefix of what it holds after. *)
Theorem store_is_append_only :
  (∀ c data w,
     stored (create_document c data w).2 c
       = stored w c ++ [new_record c data w] ∧
     ∀ c', c' ≠ c →
       _memory_store (create_document c data w).2 !! c'
         = _memory_store w !! c') ∧
  (∀ r w c, stored w c `prefix_of` stored (handle r w).2 c) ∧
  (∀ rs w c, stored w c `prefix_of` stored (serve rs w).2 c).
Proof.
  split; [|split].
  - intros c data w. split; [apply create_document_stored|].
    intros c' Hne. by apply create_document_other.
  - apply handle_prefix.
  - apply serve_prefix.
Qed.

(** C10: a chat request with action flashcards creates exactly one document,
    in the flashcard collection, and one with action quiz exactly one, in the
    quiz collection; neither touches the doubt collection.  With action
    simplify or explain10, or with no action, the request creates exactly
    one doubt document and no flashcard or quiz document. *)
Theorem chat_creates_one_document (req : ChatRequest.t) (w : world) :
  match ChatRequest.action req with
  | Some Flashcards =>
      creates_one_in "flashcard" w (chat req w).2 ∧
      stored (chat req w).2 "doubt" = stored w "doubt" ∧
      stored (chat req w).2 "quiz" = stored w "quiz"
  | Some Quiz =>
      creates_one_in "quiz" w (chat req w).2 ∧
      stored (chat req w).2 "doubt" = stored w "doubt" ∧
      stored (chat req w).2 "flashcard" = stored w "flashcard"
  | Some Simplify | Some Explain10 | None =>
      creates_one_in "doubt" w (chat req w).2 ∧
      stored (chat req w).2 "flashcard" = stored w "flashcard" ∧
      stored (chat req w).2 "quiz" = stored w "quiz"
  end.
Proof.
  unfold chat, chat_doubt.
  destruct (ChatRequest.action req) as [[]|].
  all: lazymatch goal with
       | |- context [create_document ?c ?d ?w] =>
           pose proof (create_document_creates_one c d w) as Hone;
           destruct (create_document c d w) as [i w']; simpl in *
       end.
  all: split; [exact Hone|].
  all: split; by apply (creates_one_in_stored _ _ _ _ Hone).
Qed.

(** C6: [create_document] reads the clock once for [created_at] and once
    more for [updated_at]: the stored record carries the two successive
    readings, and where the clock has moved between them, as in a fresh
    process whose clock advances by a microsecond per reading, the two
    fields differ. *)
Theorem create_document_stamps_two_readings :
  (∀ c data w,
     ∃ rec, stored (create_document c data w).2 c = stored w c ++ [rec] ∧
       dict_lookup rec "created_at" = Some (VTime (clock w (ticks w))) ∧
       dict_lookup rec "updated_at" = Some (VTime (clock w (S (ticks w))))) ∧
  (∃ rec,
     stored (create_document "doubt" [("user_id", VStr "u1")] fresh).2 "doubt"
       = [rec] ∧
     dict_get rec "created_at" = VTime 1700000000000000 ∧
     dict_get rec "updated_at" = VTime 1700000000000001 ∧
     py_eq (dict_get rec "created_at") (dict_get rec "updated_at") = false).
Proof.
  split.
  - intros c data w. exists (new_record c data w).
    split; [apply create_document_stored|]. unfold new_record. split.
    + rewrite !dict_lookup_set_ne by done. apply dict_lookup_set_eq.
    + rewrite dict_lookup_set_ne by done. apply dict_lookup_set_eq.
  - eexists. split; [vm_compute; reflexivity|]. by vm_compute.
Qed.

(** ** The generators of [main.py] *)

Lemma quiz_questions_eq req :
  quiz_questions req
  = quiz_question (QuizRequest.topic req) <$> py_range (QuizRequest.count req).
Proof. unfold quiz_questions. by rewrite for_append_fmap. Qed.

Lemma generate_quiz_questions req w :
  as_list (field (generate_quiz req w).1 "questions") = quiz_questions req.
Proof.
  unfold generate_quiz. by destruct (create_document _ _ _).
Qed.

Lemma quiz_questions_lookup req (i : nat) q :
  quiz_questions req !! i = Some q →
  q = quiz_question (QuizRequest.topic req) (Z.of_nat i).
Proof.
  rewrite quiz_questions_eq, list_lookup_fmap. intros Hq.
  destruct (py_range _ !! i) as [z|] eqn:Hz; [|done].
  assert (i < Z.to_nat (QuizRequest.count req))%nat as Hi.
  { rewrite <-py_range_length. by eapply lookup_lt_Some. }
  rewrite py_range_lookup in Hz by done. by simplify_eq/=.
Qed.

Lemma Even_mod2 (i : nat) : Nat.Even i → Z.of_nat i `mod` 2 = 0.
Proof. intros [m ->]. Z.div_mod_to_equations. lia. Qed.

Lemma Odd_mod2 (i : nat) : Nat.Odd i → Z.of_nat i `mod` 2 ≠ 0.
Proof. intros [m ->]. Z.div_mod_to_equations. lia. Qed.

(** The types of a list of questions, in order. *)
Lemma quiz_five_types u topic :
  (λ q, field q "type") <$> quiz_questions (QuizRequest.Make u topic 5)
  = [VStr "mcq"; VStr "short"; VStr "mcq"; VStr "short"; VStr "mcq"].
Proof. reflexivity. Qed.

(** C4, as the code has it: a quiz of five questions holds exactly three
    questions of type mcq, at indices 0, 2 and 4, and two of type short, at
    indices 1 and 3: its types read mcq, short, mcq, short, mcq. *)
Theorem quiz_five_has_3_mcq_2_short (user_id topic : string) (w : world) :
  count_type "mcq"
    (as_list (field (generate_quiz (QuizRequest.Make user_id topic 5) w).1
                "questions")) = 3%nat ∧
  count_type "short"
    (as_list (field (generate_quiz (QuizRequest.Make user_id topic 5) w).1
                "questions")) = 2%nat ∧
  (λ q, field q "type")
    <$> as_list (field (generate_quiz (QuizRequest.Make user_id topic 5) w).1
                   "questions")
  = [VStr "mcq"; VStr "short"; VStr "mcq"; VStr "short"; VStr "mcq"] ∧
  (∀ (i : nat) q,
     as_list (field (generate_quiz (QuizRequest.Make user_id topic 5) w).1
                "questions") !! i = Some q →
     (i = 0%nat ∨ i = 2%nat ∨ i = 4%nat → field q "type" = VStr "mcq") ∧
     (i = 1%nat ∨ i = 3%nat → field q "type" = VStr "short")).
Proof.
  rewrite generate_quiz_questions.
  split; [reflexivity|]. split; [reflexivity|].
  split; [apply quiz_five_types|].
  intros i q Hq. apply quiz_questions_lookup in Hq as ->.
  split; intros Hi; repeat destruct Hi as [Hi|Hi]; by subst i.
Qed.

(** C4, as stated, fails: the quiz of five questions generated in a fresh
    process does not hold two mcq and three short questions. *)
Lemma quiz_five_not_2_mcq_3_short :
  ¬ (count_type "mcq"
       (as_list (field (generate_quiz (QuizRequest.Make "u1" "cells" 5)
                          fresh).1 "questions")) = 2%nat ∧
     count_type "short"
       (as_list (field (generate_quiz (QuizRequest.Make "u1" "cells" 5)
                          fresh).1 "questions")) = 3%nat).
Proof. rewrite generate_quiz_questions. intros [H _]. vm_compute in H. lia. Qed.

(** C5: for a count of 5 or 10 the response lists exactly that many
    questions; the one at an even index is of type mcq, with options A to D
    and answer A, and the one at an odd index is of type short.  For a count
    of 5 the types read mcq, short, mcq, short, mcq. *)
Theorem quiz_types_alternate (req : QuizRequest.t) (w : world) :
  QuizRequest.valid req →
  Z.of_nat (length (as_list (field (generate_quiz req w).1 "questions")))
    = QuizRequest.count req ∧
  (∀ (i : nat) q,
     as_list (field (generate_quiz req w).1 "questions") !! i = Some q →
     (Nat.Even i →
      field q "type" = VStr "mcq" ∧
      field q "options" = VList [VStr "A"; VStr "B"; VStr "C"; VStr "D"] ∧
      field q "answer" = VStr "A") ∧
     (Nat.Odd i → field q "type" = VStr "short")) ∧
  (QuizRequest.count req = 5 →
   (λ q, field q "type")
     <$> as_list (field (generate_quiz req w).1 "questions")
   = [VStr "mcq"; VStr "short"; VStr "mcq"; VStr "short"; VStr "mcq"]).
Proof.
  intros Hvalid. rewrite generate_quiz_questions. split; [|split].
  - rewrite quiz_questions_eq, length_fmap, py_range_length.
    destruct Hvalid as [-> | ->]; reflexivity.
  - intros i q Hq. apply quiz_questions_lookup in Hq as ->.
    unfold quiz_question. split.
    + intros Hi%Even_mod2. by rewrite bool_decide_eq_true_2.
    + intros Hi%Odd_mod2. by rewrite bool_decide_eq_false_2.
  - intros H5. destruct req as [u t c]. simpl in H5. subst c.
    apply quiz_five_types.
Qed.

Lemma quiz_types_alternate_witness :
  Z.of_nat
    (length (as_list (field (generate_quiz (QuizRequest.Make "u1" "cells" 10)
                               fresh).1 "questions"))) = 10 ∧
  ∀ (i : nat) q,
    as_list (field (generate_quiz (QuizRequest.Make "u1" "cells" 10)
                      fresh).1 "questions") !! i = Some q →
    (Nat.Even i →
     field q "type" = VStr "mcq" ∧
     field q "options" = VList [VStr "A"; VStr "B"; VStr "C"; VStr "D"] ∧
     field q "answer" = VStr "A") ∧
    (Nat.Odd i → field q "type" = VStr "short").
Proof.
  pose proof (quiz_types_alternate (QuizRequest.Make "u1" "cells" 10) fresh)
    as H.
  split; apply H; right; reflexivity.
Defined.

Lemma generate_flashcards_items req w :
  as_list (field (generate_flashcards req w).1 "items") = flashcard_items req.
Proof.
  unfold generate_flashcards. by destruct (create_document _ _ _).
Qed.

Lemma flashcard_items_length req :
  length (flashcard_items req)
  = Z.to_nat (Z.max 1 (Z.min (FlashcardRequest.count req) 20)).
Proof.
  unfold flashcard_items.
  by rewrite for_append_fmap, length_app, length_fmap, py_range_length.
Qed.

(** C7: the response to a flashcard request lists as many items as the
    requested count clamped to the range 1..20: five for a count of 5,
    twenty for a count of 25, one for a count of 0. *)
Theorem flashcards_count_clamped (req : FlashcardRequest.t) (w : world) :
  Z.of_nat (length (as_list (field (generate_flashcards req w).1 "items")))
    = Z.max 1 (Z.min (FlashcardRequest.count req) 20) ∧
  (FlashcardRequest.count req = 5 →
   length (as_list (field (generate_flashcards req w).1 "items")) = 5%nat) ∧
  (FlashcardRequest.count req = 25 →
   length (as_list (field (generate_flashcards req w).1 "items")) = 20%nat) ∧
  (FlashcardRequest.count req = 0 →
   length (as_list (field (generate_flashcards req w).1 "items")) = 1%nat).
Proof.
  rewrite generate_flashcards_items, flashcard_items_length.
  repeat split; lia.
Qed.

Lemma create_plan_tasks req w :
  as_list (field (create_plan req w).1 "tasks") = plan_tasks req.
Proof.
  unfold create_plan. by destruct (create_document _ _ _).
Qed.

Lemma plan_tasks_eq req :
  plan_tasks req
  = imap (plan_task
            (Z.max 1 (PlanRequest.daily_minutes req
               `div` Z.max 1 (Z.of_nat (length (PlanRequest.subjects req))))))
      (PlanRequest.subjects req).
Proof.
  unfold plan_tasks. rewrite for_append_fmap. simpl.
  apply list_eq. intros i.
  rewrite list_lookup_fmap, !list_lookup_imap.
  by destruct (PlanRequest.subjects req !! i).
Qed.

(** C8: the response to a planner request lists one task per subject, in
    the order of the subjects, each with minutes equal to the larger of 1
    and the daily minutes divided (rounding down) by the number of
    subjects.  Two subjects, Math and Science, with 40 daily minutes give
    two tasks of 20 minutes each. *)
Theorem planner_one_task_per_subject (req : PlanRequest.t) (w : world) :
  length (as_list (field (create_plan req w).1 "tasks"))
    = length (PlanRequest.subjects req) ∧
  (∀ (i : nat) subject,
     PlanRequest.subjects req !! i = Some subject →
     ∃ task,
       as_list (field (create_plan req w).1 "tasks") !! i = Some task ∧
       field task "subject" = VStr subject ∧
       field task "minutes"
         = VInt (Z.max 1 (PlanRequest.daily_minutes req
                   `div` Z.of_nat (length (PlanRequest.subjects req))))) ∧
  (PlanRequest.subjects req = ["Math"; "Science"] →
   PlanRequest.daily_minutes req = 40 →
   (λ task, (field task "subject", field task "minutes"))
     <$> as_list (field (create_plan req w).1 "tasks")
   = [(VStr "Math", VInt 20); (VStr "Science", VInt 20)]).
Proof.
  rewrite create_plan_tasks, plan_tasks_eq. split; [|split].
  - apply length_imap.
  - intros i subject Hi. eexists. split.
    + rewrite list_lookup_imap, Hi. reflexivity.
    + simpl. split; [reflexivity|].
      apply lookup_lt_Some in Hi.
      unfold dict_get; simpl. do 3 f_equal. lia.
  - intros Hs Hd. rewrite Hs, Hd. reflexivity.
Qed.

(** ** [get_documents] *)

Lemma truthy_int_nonzero N : N ≠ 0 → truthy_int (Some N) = true.
Proof. intros HN. unfold truthy_int. by rewrite bool_decide_eq_false_2. Qed.

Lemma get_documents_no_limit c f w :
  get_documents c f None w = matching w c f.
Proof. reflexivity. Qed.

Lemma get_documents_limit_pos c f N w :
  0 < N → get_documents c f (Some N) w = take (Z.to_nat N) (matching w c f).
Proof.
  intros HN. unfold get_documents.
  rewrite truthy_int_nonzero by lia. unfold py_slice_to. simpl.
  by rewrite bool_decide_eq_true_2 by lia.
Qed.

(** C1, as the code has it: for a positive limit N, [get_documents] returns
    the first N matching records, so never more than N, and fewer than N
    only when fewer than N stored records match the filter. *)
Theorem limit_respected_when_positive (w : world) (c : string)
    (f : option doc) (N : Z) :
  0 < N →
  limit_respected w c f N ∧
  get_documents c f (Some N) w = take (Z.to_nat N) (matching w c f).
Proof.
  intros HN. split; [|by apply get_documents_limit_pos].
  unfold limit_respected. rewrite get_documents_limit_pos by done.
  rewrite length_take. lia.
Qed.

Lemma limit_respected_when_positive_witness :
  limit_respected after_doubt "doubt" (Some [("user_id", VStr "u1")]) 1 ∧
  get_documents "doubt" (Some [("user_id", VStr "u1")]) (Some 1) after_doubt
  = take (Z.to_nat 1)
      (matching after_doubt "doubt" (Some [("user_id", VStr "u1")])).
Proof. apply (limit_respected_when_positive after_doubt "doubt" _ 1). lia. Defined.

(** C1, as stated, fails for the limit 0: with one doubt stored, a call with
    limit 0 returns that record, which is more than 0 records. *)
Lemma limit_zero_not_respected :
  ¬ limit_respected after_doubt "doubt" None 0.
Proof.
  intros [H _].
  assert (length (get_documents "doubt" None (Some 0) after_doubt) = 1%nat)
    as Hlen by (vm_compute; reflexivity).
  rewrite Hlen in H. lia.
Qed.

Lemma py_eq_None v : v ≠ VNone → py_eq VNone v = false.
Proof. by destruct v. Qed.

Lemma _matches_absent_as_none f d : _matches f d = equal_absent_as_none f d.
Proof.
  unfold _matches, equal_absent_as_none, py_ne, dict_get.
  induction f as [|[k v] f IH]; cbn [forallb fst snd]; [done|].
  rewrite IH, negb_involutive. by destruct (dict_lookup d k).
Qed.

Lemma absent_as_none_present f d :
  (∀ kv, kv ∈ f → kv.2 ≠ VNone) →
  equal_absent_as_none f d = present_and_equal f d.
Proof.
  unfold equal_absent_as_none, present_and_equal.
  induction f as [|[k v] f IH]; intros Hf; cbn [forallb fst snd]; [done|].
  rewrite IH by (intros kv Hkv; apply Hf; by right).
  destruct (dict_lookup d k); [done|].
  rewrite py_eq_None; [done|]. apply (Hf (k, v)). by left.
Qed.

Lemma filter_ext_bool {A} (p q : A → bool) (l : list A) :
  (∀ x, p x = q x) →
  filter (λ x, p x = true) l = filter (λ x, q x = true) l.
Proof.
  intros Hpq. induction l as [|x l IH]; [done|].
  rewrite !filter_cons, IH, (Hpq x). by repeat case_decide.
Qed.

Lemma matching_empty_filter w c : matching w c (Some []) = stored w c.
Proof.
  unfold matching. simpl. induction (stored w c) as [|d l IH]; [done|].
  rewrite filter_cons_True by done. by rewrite IH.
Qed.

(** C2, as the code has it: with no limit, [get_documents] returns, in
    insertion order, exactly the stored records whose value under every
    filter key equals the filter's value, a key the record lacks reading as
    [None].  When no filter value is [None] these are exactly the records in
    which every filter key is present and equal.  The empty filter, and no
    filter, return every stored record in creation order. *)
Theorem find_returns_matching_in_order (w : world) (c : string)
    (f : option doc) :
  get_documents c f None w
    = filter (λ d, equal_absent_as_none (default [] f) d = true)
        (stored w c) ∧
  ((∀ kv, kv ∈ default [] f → kv.2 ≠ VNone) →
   get_documents c f None w = find_claimed w c f) ∧
  get_documents c (Some []) None w = stored w c ∧
  get_documents c None None w = stored w c.
Proof.
  rewrite !get_documents_no_limit. split; [|split; [|split]].
  - unfold matching. apply filter_ext_bool, _matches_absent_as_none.
  - intros Hf. unfold matching, find_claimed. apply filter_ext_bool.
    intros d. rewrite _matches_absent_as_none. by apply absent_as_none_present.
  - apply matching_empty_filter.
  - apply matching_empty_filter.
Qed.

Lemma find_returns_matching_in_order_witness :
  get_documents "flashcard" (Some [("user_id", VStr "u1")]) None
    after_chat_flashcards
  = find_claimed after_chat_flashcards "flashcard"
      (Some [("user_id", VStr "u1")]).
Proof.
  apply (proj1 (proj2 (find_returns_matching_in_order after_chat_flashcards
                         "flashcard" (Some [("user_id", VStr "u1")])))).
  intros kv ->%list_elem_of_singleton. discriminate.
Defined.

(** C2, as stated, fails: the flashcard record a chat request stores has no
    ["subject"] key, yet the filter [{"subject": None}] returns it. *)
Lemma find_none_matches_missing_key :
  get_documents "flashcard" (Some [("subject", VNone)]) None
    after_chat_flashcards
  ≠ find_claimed after_chat_flashcards "flashcard"
      (Some [("subject", VNone)]).
Proof. vm_compute. discriminate. Qed.

(** ** Identifiers *)

Lemma string_app_assoc (a b c : string) : (a +:+ b) +:+ c = a +:+ (b +:+ c).
Proof.
  induction a as [|x a IH]; [done|].
  change (String x ((a +:+ b) +:+ c) = String x (a +:+ (b +:+ c))).
  by rewrite IH.
Qed.

(** Two strings that end in a dash followed by dash-free text agree on that
    text as soon as they are equal. *)
Lemma last_segment_inj (a b x y : string) :
  a +:+ String "-" x = b +:+ String "-" y →
  no_dash x → no_dash y → x = y.
Proof.
  revert b. induction a as [|c a IH]; intros [|d b] Heq Hx Hy.
  - by injection Heq.
  - injection Heq as _ ->. exfalso. clear -Hx.
    induction b as [|e b IHb]; [by destruct Hx|].
    destruct Hx as [_ Hx]. by apply IHb.
  - injection Heq as _ <-. exfalso. clear -Hy.
    induction a as [|e a IHa]; [by destruct Hy|].
    destruct Hy as [_ Hy]. by apply IHa.
  - injection Heq as _ Heq. by eapply IH.
Qed.

Lemma pretty_N_char_no_dash x : pretty_N_char x ≠ "-"%char.
Proof. unfold pretty_N_char. by repeat case_match. Qed.

Lemma pretty_N_go_no_dash x s : no_dash s → no_dash (pretty_N_go x s).
Proof.
  revert s. induction (N.lt_wf_0 x) as [x _ IH]; intros s Hs.
  destruct (decide (x = 0)%N) as [->|Hx].
  - by rewrite pretty_N_go_0.
  - rewrite pretty_N_go_step by lia. apply IH.
    + apply N.div_lt; lia.
    + split; [apply pretty_N_char_no_dash|done].
Qed.

Lemma str_int_no_dash n : 0 < n → no_dash (str_int n).
Proof.
  destruct n as [|p|p]; [lia| |lia]. intros _.
  unfold str_int, pretty, pretty_Z, pretty, pretty_positive, pretty, pretty_N.
  rewrite decide_False by done. by apply pretty_N_go_no_dash.
Qed.

Lemma id_shape_sequence_inj c c' ms ms' n n' :
  0 < n → 0 < n' → id_shape c ms n = id_shape c' ms' n' → n = n'.
Proof.
  intros Hn Hn' Heq. unfold id_shape in Heq.
  rewrite <-!(string_app_assoc _ _ ("-" +:+ _)) in Heq.
  apply last_segment_inj in Heq; [|by apply str_int_no_dash..].
  by apply (inj pretty) in Heq.
Qed.

Lemma id_shape_nonempty c ms n : id_shape c ms n ≠ "".
Proof. discriminate. Qed.

Lemma create_document_id c data w :
  (create_document c data w).1
  = id_shape c (Z.quot (clock w (S (S (ticks w)))) 1000)
      (Z.of_nat (length (stored w c)) + 1).
Proof. reflexivity. Qed.

Lemma create_document_length c data w c' :
  (length (stored w c') ≤ length (stored (create_document c data w).2 c'))%nat.
Proof. apply prefix_length, create_document_prefix. Qed.

Lemma create_all_cons_ids c d calls w :
  (create_all ((c, d) :: calls) w).1
  = (create_document c d w).1
      :: (create_all calls (create_document c d w).2).1.
Proof.
  cbn [create_all]. destruct (create_document c d w) as [i0 w1].
  cbn [fst snd]. by destruct (create_all calls w1).
Qed.

(** Every id a run of calls returns for collection [c] carries a sequence
    number beyond the number of records [c] held when the run began. *)
Lemma create_all_sequence calls w (i : nat) c d id :
  calls !! i = Some (c, d) →
  (create_all calls w).1 !! i = Some id →
  ∃ ms n, id = id_shape c ms n ∧ Z.of_nat (length (stored w c)) < n.
Proof.
  revert w i. induction calls as [|[c0 d0] calls IH]; intros w i Hc Hid;
    [done|].
  rewrite create_all_cons_ids, create_document_id in Hid.
  pose proof (create_document_length c0 d0 w c) as Hlen.
  generalize dependent (create_document c0 d0 w).2. intros w1 Hid Hlen.
  destruct i as [|i]; simplify_eq/=.
  - eexists _, _. split; [done|]. lia.
  - destruct (IH _ i Hc Hid) as (ms & n & -> & Hn).
    eexists _, _. split; [done|]. lia.
Qed.

Lemma create_all_distinct_lt calls w (i j : nat) c d1 d2 id1 id2 :
  (i < j)%nat →
  calls !! i = Some (c, d1) → calls !! j = Some (c, d2) →
  (create_all calls w).1 !! i = Some id1 →
  (create_all calls w).1 !! j = Some id2 →
  id1 ≠ id2.
Proof.
  revert w i j.
  induction calls as [|[c0 d0] calls IH]; intros w i j Hij Hi Hj H1 H2;
    [done|].
  rewrite create_all_cons_ids, create_document_id in H1, H2.
  pose proof (create_document_stored c0 d0 w) as Hst.
  generalize dependent (create_document c0 d0 w).2. intros w1 H1 H2 Hst.
  destruct j as [|j]; [lia|]. destruct i as [|i]; simplify_eq/=.
  - destruct (create_all_sequence _ _ j c d2 id2 Hj H2) as (ms & n & -> & Hn).
    rewrite Hst, length_app in Hn. simpl in Hn.
    intros Heq. apply id_shape_sequence_inj in Heq; lia.
  - eapply (IH _ i j); eauto with lia.
Qed.

(** C3: in fallback mode a create call returns a non-empty identifier of the
    shape demo-<collection>-<epoch-millis>-<sequence>, the sequence being
    one more than the number of records the collection held, and the record
    it adds to the collection carries that identifier under [_id]; and the
    identifiers that calls made one after the other return for one and the
    same collection are pairwise distinct. *)
Theorem create_ids_shaped_and_distinct :
  (∀ c data w,
     (create_document c data w).1
       = id_shape c (Z.quot (clock w (S (S (ticks w)))) 1000)
           (Z.of_nat (length (stored w c)) + 1) ∧
     (create_document c data w).1 ≠ "" ∧
     ∃ rec,
       stored (create_document c data w).2 c = stored w c ++ [rec] ∧
       dict_lookup rec "_id" = Some (VStr (create_document c data w).1)) ∧
  (∀ calls w, length (create_all calls w).1 = length calls) ∧
  (∀ calls w (i j : nat) c d1 d2 id1 id2,
     i ≠ j →
     calls !! i = Some (c, d1) → calls !! j = Some (c, d2) →
     (create_all calls w).1 !! i = Some id1 →
     (create_all calls w).1 !! j = Some id2 →
     id1 ≠ id2).
Proof.
  split; [|split].
  - intros c data w. split; [apply create_document_id|]. split.
    + rewrite create_document_id. apply id_shape_nonempty.
    + exists (new_record c data w). split; [apply create_document_stored|].
      apply dict_lookup_set_eq.
  - intros calls. induction calls as [|[c d] calls IH]; intros w; [done|].
    rewrite create_all_cons_ids. simpl. by rewrite IH.
  - intros calls w i j c d1 d2 id1 id2 Hij Hi Hj H1 H2.
    destruct (decide (i < j)%nat).
    + by eapply (create_all_distinct_lt calls w i j).
    + apply not_eq_sym.
      eapply (create_all_distinct_lt calls w j i); eauto with lia.
Qed.


(** * Further properties of the handlers and of the store *)

(** ** What each route writes *)

Lemma handle_target r w :
  match target_collection r with
  | Some c => creates_one_in c w (handle r w).2
  | None => (handle r w).2 = w
  end.
Proof.
  destruct r as [| |req|data|req|u f|req|req|req|req|u];
    unfold target_collection, handle, login, setup_profile, chat, chat_doubt,
      photo_doubt, generate_flashcards, generate_quiz, create_plan, summarize;
    try reflexivity.
  3: destruct (ChatRequest.action req) as [[]|].
  all: lazymatch goal with
       | |- context [create_document ?c ?d ?w] =>
           pose proof (create_document_creates_one c d w) as Hone;
           destruct (create_document c d w) as [i w']; exact Hone
       end.
Qed.

Lemma handle_length r w c :
  length (stored (handle r w).2 c)
  = (length (stored w c)
     + if decide (target_collection r = Some c) then 1 else 0)%nat.
Proof.
  pose proof (handle_target r w) as H.
  destruct (target_collection r) as [c0|].
  - destruct H as [[rec Hrec] Hother].
    destruct (decide (Some c0 = Some c)) as [[= ->]|Hne].
    + rewrite Hrec, length_app. simpl. lia.
    + unfold stored. rewrite Hother by congruence. lia.
  - rewrite H. rewrite decide_False by done. lia.
Qed.

Lemma serve_cons r rs w :
  (serve (r :: rs) w).2 = (serve rs (handle r w).2).2.
Proof.
  cbn [serve]. destruct (handle r w) as [resp w1].
  cbn [snd]. by destruct (serve rs w1).
Qed.

Lemma new_record_id c data w :
  dict_lookup (new_record c data w) "_id"
  = Some (VStr (create_document c data w).1).
Proof. apply dict_lookup_set_eq. Qed.

Lemma new_record_other c data w k :
  k ≠ "created_at" → k ≠ "updated_at" → k ≠ "_id" →
  dict_lookup (new_record c data w) k = dict_lookup data k.
Proof. intros H1 H2 H3. unfold new_record. by rewrite !dict_lookup_set_ne. Qed.

(** Split the one [create_document] call of a handler, keeping what is
    known of its result under the names [Hst], [Hother] and [Hid]. *)
Local Ltac split_create :=
  lazymatch goal with
  | |- context [create_document ?c ?d ?w] =>
      pose proof (create_document_stored c d w) as Hst;
      pose proof (λ c', create_document_other c c' d w) as Hother;
      pose proof (new_record_id c d w) as Hid;
      destruct (create_document c d w) as [i w']; cbn [fst snd] in *
  end.

(** X1: every route writes to one fixed collection: login to user, profile
    setup to profile, chat to flashcard, quiz or doubt by its action, photo
    doubt to doubt, flashcards to flashcard, quiz to quiz, planner to
    studyplan, summary to notesummary.  A request to one of them adds
    exactly one record at the end of that collection, changes nothing else
    in the store, and answers with the [_id] of that record under the
    route's id key; the three GET routes leave the whole state as it
    was. *)
Theorem each_route_writes_one_record (r : request) (w : world) :
  match target_collection r with
  | Some c =>
      ∃ rec id,
        stored (handle r w).2 c = stored w c ++ [rec] ∧
        (∀ c', c' ≠ c →
           _memory_store (handle r w).2 !! c' = _memory_store w !! c') ∧
        dict_lookup rec "_id" = Some (VStr id) ∧
        field (handle r w).1 (id_key r) = VStr id
  | None => (handle r w).2 = w
  end.
Proof.
  destruct r as [| |req|data|req|u f|req|req|req|req|u];
    unfold target_collection, id_key, handle, login, setup_profile, chat,
      chat_doubt, photo_doubt, generate_flashcards, generate_quiz,
      create_plan, summarize;
    try reflexivity.
  3: destruct (ChatRequest.action req) as [[]|].
  all: split_create; eexists _, i.
  all: split; [exact Hst|]; split; [intros c' Hc'; by apply Hother|].
  all: split; [exact Hid|reflexivity].
Qed.

(** X2: after a sequence of requests a collection holds as many records as
    before plus the number of requests in the sequence that write to it. *)
Theorem serve_counts_writes (rs : list request) (w : world) (c : string) :
  length (stored (serve rs w).2 c)
  = (length (stored w c)
     + length (filter (λ r, target_collection r = Some c) rs))%nat.
Proof.
  revert w. induction rs as [|r rs IH]; intros w.
  - simpl. lia.
  - rewrite serve_cons, IH, handle_length, filter_cons.
    destruct (decide (target_collection r = Some c)); simpl; lia.
Qed.

(** ** [create_document] *)

(** X3: the record [create_document] stores keeps every field of the data
    it was given, except the three it sets itself: whatever the data held
    under [created_at], [updated_at] or [_id] is replaced by the stamps and
    the new id. *)
Theorem create_document_keeps_data (c : string) (data : doc) (w : world) :
  ∃ rec,
    stored (create_document c data w).2 c = stored w c ++ [rec] ∧
    (∀ k, k ≠ "created_at" → k ≠ "updated_at" → k ≠ "_id" →
          dict_lookup rec k = dict_lookup data k) ∧
    dict_lookup rec "created_at" = Some (VTime (clock w (ticks w))) ∧
    dict_lookup rec "updated_at" = Some (VTime (clock w (S (ticks w)))) ∧
    dict_lookup rec "_id" = Some (VStr (create_document c data w).1).
Proof.
  exists (new_record c data w). split; [apply create_document_stored|].
  unfold new_record. repeat split.
  - intros k H1 H2 H3. by rewrite !dict_lookup_set_ne.
  - rewrite !dict_lookup_set_ne by done. apply dict_lookup_set_eq.
  - rewrite dict_lookup_set_ne by done. apply dict_lookup_set_eq.
  - apply dict_lookup_set_eq.
Qed.

(** ** [get_documents] *)

Lemma py_slice_to_sublist {A} (l : list A) n : py_slice_to l n `sublist_of` l.
Proof. unfold py_slice_to. case_bool_decide; apply sublist_take. Qed.

Lemma get_documents_slice c f limit w :
  get_documents c f limit w = matching w c f ∨
  ∃ n, get_documents c f limit w = take n (matching w c f).
Proof.
  unfold get_documents, py_slice_to. fold (matching w c f).
  destruct (truthy_int limit); [|by left].
  right. case_bool_decide; by eexists.
Qed.

Lemma matching_Forall w c f :
  Forall (λ d, _matches (default [] f) d = true) (matching w c f).
Proof.
  apply Forall_forall. intros d Hd.
  by apply list_elem_of_filter in Hd as [Hd _].
Qed.

Lemma get_documents_sublist c f limit w :
  get_documents c f limit w `sublist_of` matching w c f.
Proof.
  destruct (get_documents_slice c f limit w) as [->|[n ->]];
    [done|apply sublist_take].
Qed.

Lemma get_documents_Forall c f limit w :
  Forall (λ d, _matches (default [] f) d = true) (get_documents c f limit w).
Proof.
  destruct (get_documents_slice c f limit w) as [->|[n ->]].
  - apply matching_Forall.
  - apply Forall_take, matching_Forall.
Qed.

(** X4: whatever the limit (absent, zero, positive or negative), the records
    [get_documents] returns are stored records of the collection, in the
    order in which they are stored, and each of them passes the filter. *)
Theorem get_documents_sound (c : string) (f : option doc) (limit : option Z)
    (w : world) :
  get_documents c f limit w `sublist_of` stored w c ∧
  Forall (λ d, _matches (default [] f) d = true) (get_documents c f limit w).
Proof.
  split.
  - etrans; [apply get_documents_sublist|]. apply sublist_filter.
  - apply get_documents_Forall.
Qed.

(** X5: a negative limit -k does not fail: as the Python slice it is, it
    drops the last k matching records and returns the rest. *)
Theorem get_documents_negative_limit (c : string) (f : option doc) (N : Z)
    (w : world) :
  N < 0 →
  get_documents c f (Some N) w
  = take (length (matching w c f) - Z.to_nat (- N)) (matching w c f).
Proof.
  intros HN. unfold get_documents. fold (matching w c f).
  rewrite truthy_int_nonzero by lia. unfold py_slice_to. simpl.
  rewrite bool_decide_eq_false_2 by lia. f_equal. lia.
Qed.

Lemma get_documents_negative_limit_witness :
  get_documents "doubt" None (Some (-3)) after_ten_doubts
  = take (length (matching after_ten_doubts "doubt" None) - Z.to_nat (- -3))
      (matching after_ten_doubts "doubt" None).
Proof. apply get_documents_negative_limit. lia. Defined.

Lemma _matches_app f g d : _matches (f ++ g) d = _matches f d && _matches g d.
Proof. unfold _matches. apply forallb_app. Qed.

(** X6: filters compose: with no limit, asking for the records that match
    the pairs of two filters put together gives the records matching the
    first filter, narrowed to those matching the second. *)
Theorem get_documents_filters_compose (c : string) (f g : doc) (w : world) :
  get_documents c (Some (f ++ g)) None w
  = filter (λ d, _matches g d = true) (get_documents c (Some f) None w).
Proof.
  rewrite !get_documents_no_limit. unfold matching. simpl.
  induction (stored w c) as [|d l IH]; [done|].
  rewrite !filter_cons, _matches_app.
  destruct (_matches f d) eqn:Hf, (_matches g d) eqn:Hg; simpl;
    repeat case_decide; try done; rewrite ?filter_cons, ?Hg;
    repeat case_decide; try done; by rewrite IH.
Qed.

(** ** [library] *)

Lemma py_eq_VStr v s : py_eq v (VStr s) = true → v = VStr s.
Proof.
  destruct v; simpl; try done. by intros ->%bool_decide_eq_true.
Qed.

Lemma _matches_by_user u d :
  _matches [("user_id", VStr u)] d = true → dict_get d "user_id" = VStr u.
Proof.
  unfold _matches, py_ne. cbn [forallb fst snd].
  rewrite negb_involutive, andb_true_r. apply py_eq_VStr.
Qed.

Lemma get_documents_length_cap c f N w :
  0 < N → Z.of_nat (length (get_documents c f (Some N) w)) <= N.
Proof.
  intros HN. rewrite get_documents_limit_pos by done.
  rewrite length_take. lia.
Qed.

Lemma library_section_eq u w key coll cap :
  (key, coll, cap) ∈ library_sections →
  0 < cap ∧
  field (library u w).1 key
  = VList (VDict <$> get_documents coll (by_user u) (Some cap) w).
Proof.
  unfold library_sections. intros H.
  repeat (apply elem_of_cons in H as [H|H]; [by simplify_eq|]).
  by apply elem_of_nil in H.
Qed.

(** X7: [library] changes nothing, and each section of its answer
    (recent doubts, flashcards, quizzes, plans, summaries) lists records
    that are stored in the section's collection, in stored order, that all
    carry the requested [user_id], and that number at most the section's
    cap: 5 for plans, 10 for the others. *)
Theorem library_lists_the_users_records (u : string) (w : world)
    (key coll : string) (cap : Z) :
  (key, coll, cap) ∈ library_sections →
  (library u w).2 = w ∧
  ∃ docs,
    field (library u w).1 key = VList (VDict <$> docs) ∧
    Z.of_nat (length docs) <= cap ∧
    docs `sublist_of` stored w coll ∧
    Forall (λ d, dict_get d "user_id" = VStr u) docs.
Proof.
  intros [Hcap Hfield]%(library_section_eq u w). split; [done|].
  exists (get_documents coll (by_user u) (Some cap) w).
  split; [done|]. split; [by apply get_documents_length_cap|]. split.
  - etrans; [apply get_documents_sublist|]. apply sublist_filter.
  - eapply Forall_impl; [apply get_documents_Forall|].
    intros d Hd. by apply _matches_by_user.
Qed.

Lemma library_lists_the_users_records_witness :
  (library "u1" after_ten_doubts).2 = after_ten_doubts ∧
  ∃ docs,
    field (library "u1" after_ten_doubts).1 "recent_doubts"
    = VList (VDict <$> docs) ∧
    Z.of_nat (length docs) <= 10 ∧
    docs `sublist_of` stored after_ten_doubts "doubt" ∧
    Forall (λ d, dict_get d "user_id" = VStr "u1") docs.
Proof.
  apply library_lists_the_users_records.
  unfold library_sections. apply elem_of_cons. by left.
Defined.

Lemma matching_nil w c f :
  Forall (λ d, _matches (default [] f) d = false) (stored w c) →
  matching w c f = [].
Proof.
  unfold matching. induction 1 as [|d l Hd _ IH]; [done|].
  rewrite filter_cons_False; [done|]. by rewrite Hd.
Qed.

Lemma get_documents_nil c f limit w :
  matching w c f = [] → get_documents c f limit w = [].
Proof.
  intros H. destruct (get_documents_slice c f limit w) as [->|[n ->]];
    rewrite H; [done|]. by destruct n.
Qed.

Lemma _matches_by_user_false u d :
  dict_get d "user_id" ≠ VStr u → _matches [("user_id", VStr u)] d = false.
Proof.
  intros Hne. apply not_true_is_false. intros H.
  by apply _matches_by_user in H.
Qed.

(** X8: for a user none of whose records is stored (in a fresh process, for
    every user) [library] answers with five empty lists. *)
Theorem library_of_unknown_user_is_empty (u : string) (w : world) :
  (∀ c d, d ∈ stored w c → dict_get d "user_id" ≠ VStr u) →
  (library u w).1
  = VDict [("recent_doubts", VList []); ("flashcards", VList []);
           ("quizzes", VList []); ("plans", VList []);
           ("summaries", VList [])].
Proof.
  intros Hnone.
  assert (∀ c limit, get_documents c (by_user u) limit w = []) as Hnil.
  { intros c limit. apply get_documents_nil, matching_nil.
    apply Forall_forall. intros d Hd.
    by apply _matches_by_user_false, (Hnone c). }
  unfold library. fold (by_user u). by rewrite !Hnil.
Qed.

Lemma library_of_unknown_user_is_empty_witness :
  (library "u1" fresh).1
  = VDict [("recent_doubts", VList []); ("flashcards", VList []);
           ("quizzes", VList []); ("plans", VList []);
           ("summaries", VList [])].
Proof.
  apply library_of_unknown_user_is_empty.
  intros c d. unfold stored, fresh. simpl. rewrite lookup_empty.
  by intros ?%elem_of_nil.
Defined.

(** ** Limits keep the oldest records *)

Lemma matching_prefix w w' c f :
  stored w c `prefix_of` stored w' c →
  matching w c f `prefix_of` matching w' c f.
Proof.
  intros [k Hk]. unfold matching. rewrite Hk, filter_app.
  by apply prefix_app_r.
Qed.

(** X9: a limit keeps the oldest matches, not the newest: once at least N
    stored records of a collection match a filter, no request served later
    changes what [get_documents] returns for that filter with limit N.  So
    a document created after a user's tenth of a kind never shows in that
    user's library. *)
Theorem limit_reached_hides_later_records (rs : list request) (w : world)
    (c : string) (f : option doc) (N : Z) :
  0 < N →
  N <= Z.of_nat (length (matching w c f)) →
  get_documents c f (Some N) (serve rs w).2 = get_documents c f (Some N) w.
Proof.
  intros HN Hfull. rewrite !get_documents_limit_pos by done.
  destruct (matching_prefix w (serve rs w).2 c f (serve_prefix rs w c))
    as [k ->].
  apply take_app_le. lia.
Qed.

Lemma limit_reached_hides_later_records_witness :
  get_documents "doubt" (by_user "u1") (Some 10)
    (serve [PostChat (ChatRequest.Make "u1" "one more" None None)]
       after_ten_doubts).2
  = get_documents "doubt" (by_user "u1") (Some 10) after_ten_doubts.
Proof.
  apply limit_reached_hides_later_records; [lia|].
  assert (length (matching after_ten_doubts "doubt" (by_user "u1")) = 10%nat)
    as -> by (vm_compute; reflexivity).
  lia.
Defined.

(** ** Identifiers of stored records *)

Lemma empty_store_stored w c : empty_store w → stored w c = [].
Proof. unfold empty_store, stored. intros ->. by rewrite lookup_empty. Qed.

Lemma ids_wf_empty w : empty_store w → ids_wf w.
Proof. intros He c i d. by rewrite (empty_store_stored w c He). Qed.

Lemma ids_wf_create c data w : ids_wf w → ids_wf (create_document c data w).2.
Proof.
  intros Hwf c' i d Hd. destruct (decide (c = c')) as [<-|Hne].
  - rewrite create_document_stored in Hd.
    apply lookup_app_Some in Hd as [Hd|[Hlen Hd]]; [by eapply Hwf|].
    apply list_lookup_singleton_Some in Hd as [Hi <-].
    eexists. rewrite new_record_id, create_document_id.
    do 3 f_equal. lia.
  - rewrite create_document_stored_other in Hd by done. by eapply Hwf.
Qed.

Lemma ids_wf_handle r w : ids_wf w → ids_wf (handle r w).2.
Proof.
  intros Hwf. destruct (handle_effect r w) as [->|(c & data & ->)]; [done|].
  by apply ids_wf_create.
Qed.

Lemma ids_wf_serve rs w : ids_wf w → ids_wf (serve rs w).2.
Proof.
  revert w. induction rs as [|r rs IH]; intros w Hwf; [done|].
  rewrite serve_cons. by apply IH, ids_wf_handle.
Qed.




Lemma _matches_id_true d s :
  dict_lookup d "_id" = Some (VStr s) → _matches [("_id", VStr s)] d = true.
Proof.
  intros Hd. unfold _matches, py_ne, dict_get. cbn [forallb fst snd].
  rewrite Hd. simpl. by rewrite bool_decide_eq_true_2.
Qed.

Lemma _matches_id_false d s s' :
  dict_lookup d "_id" = Some (VStr s') → s' ≠ s →
  _matches [("_id", VStr s)] d = false.
Proof.
  intros Hd Hne. unfold _matches, py_ne, dict_get. cbn [forallb fst snd].
  rewrite Hd. simpl. by rewrite bool_decide_eq_false_2.
Qed.

Lemma filter_only_last (f : doc) (l : list doc) (rec : doc) :
  Forall (λ d, _matches f d = false) l → _matches f rec = true →
  filter (λ d, _matches f d = true) (l ++ [rec]) = [rec].
Proof.
  intros Hl Hrec. rewrite filter_app.
  rewrite (filter_cons_True _ rec []) by done. rewrite filter_nil.
  replace (filter _ l) with (@nil doc); [done|].
  symmetry. induction Hl as [|d l Hd _ IH]; [done|].
  rewrite filter_cons_False; [done|]. by rewrite Hd.
Qed.

(** X11: create, then find by id: in a state whose records carry their
    positional ids (every state reached from an empty store), looking up
    the id that [create_document] has just returned, with the filter
    [{"_id": id}], gives back exactly the one record it stored. *)
Theorem find_by_returned_id (c : string) (data : doc) (w : world) :
  ids_wf w →
  ∃ rec,
    stored (create_document c data w).2 c = stored w c ++ [rec] ∧
    get_documents c (Some [("_id", VStr (create_document c data w).1)]) None
      (create_document c data w).2
    = [rec].
Proof.
  intros Hwf. exists (new_record c data w).
  split; [apply create_document_stored|].
  rewrite get_documents_no_limit. unfold matching.
  rewrite create_document_stored. cbn [default].
  apply filter_only_last; [|apply _matches_id_true, new_record_id].
  apply Forall_forall. intros d [i Hi]%list_elem_of_lookup.
  destruct (Hwf c i d Hi) as [ms Hd].
  apply (_matches_id_false _ _ _ Hd).
  rewrite create_document_id. intros Heq.
  apply lookup_lt_Some in Hi.
  apply id_shape_sequence_inj in Heq; lia.
Qed.

Lemma find_by_returned_id_witness :
  ∃ rec,
    stored (create_document "doubt" [("user_id", VStr "u2")]
              after_ten_doubts).2 "doubt"
    = stored after_ten_doubts "doubt" ++ [rec] ∧
    get_documents "doubt"
      (Some [("_id",
              VStr (create_document "doubt" [("user_id", VStr "u2")]
                      after_ten_doubts).1)]) None
      (create_document "doubt" [("user_id", VStr "u2")] after_ten_doubts).2
    = [rec].
Proof.
  apply find_by_returned_id.
  apply (ids_wf_serve ten_doubts fresh), ids_wf_empty. reflexivity.
Defined.

(** ** From a request to the library *)

Lemma handle_create r w c u :
  target_collection r = Some c → request_user r = Some u →
  ∃ data,
    (handle r w).2 = (create_document c data w).2 ∧
    field (handle r w).1 (id_key r) = VStr (create_document c data w).1 ∧
    dict_lookup data "user_id" = Some (VStr u).
Proof.
  destruct r as [| |req|data|req|u0 f|req|req|req|req|u0];
    unfold target_collection, request_user, id_key, handle, login,
      setup_profile, chat, chat_doubt, photo_doubt, generate_flashcards,
      generate_quiz, create_plan, summarize;
    try discriminate.
  2: destruct (ChatRequest.action req) as [[]|].
  all: intros [= <-] [= <-].
  all: lazymatch goal with
       | |- context [create_document ?c ?d ?w] =>
           exists d; destruct (create_document c d w) as [i w'];
           by repeat split
       end.
Qed.

Lemma matching_create_by_user c data w u :
  dict_lookup data "user_id" = Some (VStr u) →
  matching (create_document c data w).2 c (by_user u)
  = matching w c (by_user u) ++ [new_record c data w].
Proof.
  intros Hu. unfold matching. rewrite create_document_stored, filter_app.
  f_equal. apply (filter_cons_True _ _ []).
  change (default [] (by_user u)) with [("user_id", VStr u)].
  unfold _matches, py_ne, dict_get. cbn [forallb fst snd].
  rewrite new_record_other by done. rewrite Hu. simpl.
  by rewrite bool_decide_eq_true_2.
Qed.

(** X12: what a user creates shows up in that user's library: when a
    request that carries a [user_id] writes to one of the collections the
    library reads, and fewer records of that user than the section's cap
    were stored there before, the library's section afterwards lists those
    earlier records followed by the new one, whose [_id] is the id the
    request was answered with. *)
Theorem created_document_shows_in_library (r : request) (w : world)
    (c u key : string) (cap : Z) :
  target_collection r = Some c →
  request_user r = Some u →
  (key, c, cap) ∈ library_sections →
  Z.of_nat (length (matching w c (by_user u))) < cap →
  ∃ rec id,
    field (library u (handle r w).2).1 key
    = VList (VDict <$> (matching w c (by_user u) ++ [rec])) ∧
    dict_lookup rec "_id" = Some (VStr id) ∧
    field (handle r w).1 (id_key r) = VStr id.
Proof.
  intros Hc Hu Hsec Hroom.
  destruct (handle_create r w c u Hc Hu) as (data & Hw & Hresp & Hdata).
  destruct (library_section_eq u (handle r w).2 _ _ _ Hsec) as [Hcap ->].
  exists (new_record c data w), (create_document c data w).1.
  split; [|split; [apply new_record_id|done]].
  rewrite Hw, get_documents_limit_pos by done.
  rewrite matching_create_by_user by done.
  rewrite take_ge; [done|]. rewrite length_app. simpl. lia.
Qed.

Lemma created_document_shows_in_library_witness :
  ∃ rec id,
    field (library "u1"
             (handle (PostQuiz (QuizRequest.Make "u1" "cells" 5))
                after_doubt).2).1 "quizzes"
    = VList (VDict <$> (matching after_doubt "quiz" (by_user "u1") ++ [rec])) ∧
    dict_lookup rec "_id" = Some (VStr id) ∧
    field (handle (PostQuiz (QuizRequest.Make "u1" "cells" 5)) after_doubt).1
      (id_key (PostQuiz (QuizRequest.Make "u1" "cells" 5)))
    = VStr id.
Proof.
  apply (created_document_shows_in_library
           (PostQuiz (QuizRequest.Make "u1" "cells" 5)) after_doubt
           "quiz" "u1" "quizzes" 10); [reflexivity|reflexivity| |].
  - unfold library_sections. do 2 (apply elem_of_cons; right).
    apply elem_of_cons. by left.
  - assert (length (matching after_doubt "quiz" (by_user "u1")) = 0%nat)
      as -> by (vm_compute; reflexivity).
    lia.
Defined.

(** ** The generators *)

Lemma new_record_get c data w k :
  k ≠ "created_at" → k ≠ "updated_at" → k ≠ "_id" →
  dict_get (new_record c data w) k = dict_get data k.
Proof. intros. unfold dict_get. by rewrite new_record_other. Qed.


Lemma plan_tasks_Forall req :
  Forall (λ t, field t "minutes"
               = VInt (Z.max 1 (PlanRequest.daily_minutes req
                    `div` Z.max 1 (Z.of_nat (length (PlanRequest.subjects req))))))
    (plan_tasks req).
Proof.
  rewrite plan_tasks_eq. apply Forall_forall.
  intros t (i & s & -> & _)%elem_of_lookup_imap. reflexivity.
Qed.

Lemma total_minutes_same (per_day : Z) (tasks : list value) :
  Forall (λ t, field t "minutes" = VInt per_day) tasks →
  total_minutes tasks = Z.of_nat (length tasks) * per_day.
Proof.
  induction 1 as [|t tasks Ht _ IH]; [done|].
  cbn [total_minutes foldr length]. fold (total_minutes tasks).
  unfold task_minutes. rewrite Ht, IH. lia.
Qed.

(** X14: the plan holds one task per subject and gives every task the same
    number of minutes, at least 1, so that the minutes of all tasks together
    are that number times the number of subjects.  When the daily minutes
    cover one minute per subject, the total stays within the daily minutes;
    when they do not, every task gets exactly one minute and the total, one
    minute per subject, exceeds the daily minutes.  An empty list of
    subjects gives an empty list of tasks. *)
Theorem planner_minutes_bounds (req : PlanRequest.t) (w : world) :
  ∃ per_day,
    1 <= per_day ∧
    length (as_list (field (create_plan req w).1 "tasks"))
      = length (PlanRequest.subjects req) ∧
    Forall (λ t, field t "minutes" = VInt per_day)
      (as_list (field (create_plan req w).1 "tasks")) ∧
    total_minutes (as_list (field (create_plan req w).1 "tasks"))
      = Z.of_nat (length (PlanRequest.subjects req)) * per_day ∧
    (Z.of_nat (length (PlanRequest.subjects req))
       <= PlanRequest.daily_minutes req →
     total_minutes (as_list (field (create_plan req w).1 "tasks"))
       <= PlanRequest.daily_minutes req) ∧
    (PlanRequest.daily_minutes req
       < Z.of_nat (length (PlanRequest.subjects req)) →
     per_day = 1 ∧
     total_minutes (as_list (field (create_plan req w).1 "tasks"))
       = Z.of_nat (length (PlanRequest.subjects req)) ∧
     PlanRequest.daily_minutes req
       < total_minutes (as_list (field (create_plan req w).1 "tasks"))) ∧
    (PlanRequest.subjects req = [] →
     as_list (field (create_plan req w).1 "tasks") = []).
Proof.
  exists (Z.max 1 (PlanRequest.daily_minutes req
            `div` Z.max 1 (Z.of_nat (length (PlanRequest.subjects req))))).
  rewrite create_plan_tasks.
  assert (length (plan_tasks req) = length (PlanRequest.subjects req))
    as Hlen by (rewrite plan_tasks_eq; apply length_imap).
  rewrite (total_minutes_same _ _ (plan_tasks_Forall req)), Hlen.
  set (n := Z.of_nat (length (PlanRequest.subjects req))).
  set (m := PlanRequest.daily_minutes req).
  assert (0 <= n) by lia.
  split; [lia|]. split; [done|]. split; [apply plan_tasks_Forall|].
  split; [done|]. split; [|split].
  - intros Hle. destruct (decide (n = 0)) as [Hn|Hn]; [rewrite Hn; lia|].
    rewrite (Z.max_r 1 n) by lia.
    pose proof (Z.mul_div_le m n ltac:(lia)).
    assert (1 <= m `div` n) by (apply Z.div_le_lower_bound; lia).
    rewrite Z.max_r by lia. lia.
  - intros Hlt.
    assert (1 `max` (m `div` (1 `max` n)) = 1) as ->; [|lia].
    destruct (decide (n = 0)) as [Hn|Hn].
    + rewrite Hn, (Z.max_l 1 0), Z.div_1_r by lia. lia.
    + rewrite (Z.max_r 1 n) by lia.
      assert (m `div` n < 1) by (apply Z.div_lt_upper_bound; lia). lia.
  - rewrite plan_tasks_eq. by intros ->.
Qed.

(** X15: a login record keeps the identifier as [email] for the email
    provider and as [phone] for the phone provider, the other of the two
    being [None]; for the google provider both are [None], so the
    identifier is not stored.  The name is the one given, or "Student" when
    none or an empty one is given. *)
Theorem login_stores_user (req : LoginRequest.t) (w : world) :
  ∃ rec,
    stored (login req w).2 "user" = stored w "user" ++ [rec] ∧
    match LoginRequest.provider req with
    | Email =>
        dict_get rec "email" = VStr (LoginRequest.identifier req) ∧
        dict_get rec "phone" = VNone
    | Phone =>
        dict_get rec "email" = VNone ∧
        dict_get rec "phone" = VStr (LoginRequest.identifier req)
    | Google => dict_get rec "email" = VNone ∧ dict_get rec "phone" = VNone
    end ∧
    (LoginRequest.name req = None ∨ LoginRequest.name req = Some "" →
     dict_get rec "name" = VStr "Student") ∧
    (∀ n, LoginRequest.name req = Some n → n ≠ "" →
          dict_get rec "name" = VStr n).
Proof.
  unfold login.
  lazymatch goal with
  | |- context [create_document ?c ?d ?w] =>
      exists (new_record c d w);
      pose proof (create_document_stored c d w) as Hst;
      destruct (create_document c d w) as [i w']; cbn [fst snd] in *
  end.
  split; [exact Hst|]. rewrite !new_record_get by done.
  split; [by destruct (LoginRequest.provider req)|]. split.
  - by intros [-> | ->].
  - intros n -> Hn. unfold dict_get. simpl. unfold str_or.
    by rewrite bool_decide_eq_false_2.
Qed.

Lemma flashcard_items_lookup req (i : nat) item :
  flashcard_items req !! i = Some item →
  item = VDict [("question",
                 VStr ("Q" +:+ str_int (Z.of_nat i + 1) +:+ " about " +:+
                       str_or (FlashcardRequest.topic req) "topic"));
                ("answer", VStr "Concise answer")].
Proof.
  unfold flashcard_items. rewrite for_append_fmap, app_nil_l.
  rewrite list_lookup_fmap. intros Hq.
  destruct (py_range _ !! i) as [z|] eqn:Hz; [|done].
  assert (i < Z.to_nat (Z.max 1 (Z.min (FlashcardRequest.count req) 20)))%nat
    as Hi.
  { rewrite <-py_range_length. by eapply lookup_lt_Some. }
  rewrite py_range_lookup in Hz by done. by simplify_eq/=.
Qed.

(** X16: flashcards are numbered from 1: the item at index [i] asks
    "Q<i+1> about <topic>" and answers "Concise answer"; with no topic, or
    an empty one, the word "topic" stands in for it. *)
Theorem flashcards_are_numbered (req : FlashcardRequest.t) (w : world)
    (i : nat) (item : value) :
  as_list (field (generate_flashcards req w).1 "items") !! i = Some item →
  field item "answer" = VStr "Concise answer" ∧
  (∀ t, FlashcardRequest.topic req = Some t → t ≠ "" →
        field item "question"
        = VStr ("Q" +:+ str_int (Z.of_nat i + 1) +:+ " about " +:+ t)) ∧
  (FlashcardRequest.topic req = None ∨ FlashcardRequest.topic req = Some "" →
   field item "question"
   = VStr ("Q" +:+ str_int (Z.of_nat i + 1) +:+ " about topic")).
Proof.
  rewrite generate_flashcards_items.
  intros ->%flashcard_items_lookup. split; [done|]. split.
  - intros t -> Ht. unfold str_or. by rewrite bool_decide_eq_false_2.
  - by intros [-> | ->].
Qed.

Lemma flashcards_are_numbered_witness :
  field (VDict [("question", VStr "Q2 about cells");
                ("answer", VStr "Concise answer")]) "answer"
  = VStr "Concise answer" ∧
  (∀ t, FlashcardRequest.topic three_cards = Some t → t ≠ "" →
        field (VDict [("question", VStr "Q2 about cells");
                      ("answer", VStr "Concise answer")]) "question"
        = VStr ("Q" +:+ str_int (Z.of_nat 1 + 1) +:+ " about " +:+ t)) ∧
  (FlashcardRequest.topic three_cards = None
   ∨ FlashcardRequest.topic three_cards = Some "" →
   field (VDict [("question", VStr "Q2 about cells");
                 ("answer", VStr "Concise answer")]) "question"
   = VStr ("Q" +:+ str_int (Z.of_nat 1 + 1) +:+ " about topic")).
Proof. apply (flashcards_are_numbered three_cards fresh 1). reflexivity. Defined.

(** ** Fields the handlers accept and drop *)

(** X17: three fields that requests may carry have no effect at all, on the
    response or on the state: the [preferred_language] of a profile setup,
    the [subject] of a chat request, and the [text] of a flashcard
    request. *)
Theorem unused_request_fields_are_ignored :
  (∀ u g s sg pl pl' m w,
     setup_profile (ProfileSetup.Make u g s sg pl m) w
     = setup_profile (ProfileSetup.Make u g s sg pl' m) w) ∧
  (∀ u m s s' a w,
     chat (ChatRequest.Make u m s a) w = chat (ChatRequest.Make u m s' a) w) ∧
  (∀ u s t x x' n w,
     generate_flashcards (FlashcardRequest.Make u s t x n) w
     = generate_flashcards (FlashcardRequest.Make u s t x' n) w).
Proof. split; [|split]; reflexivity. Qed.

(** ** [photo_doubt] and [test_database] *)


Lemma truthy_str_spec o :
  truthy_str o = true ↔ ∃ s, o = Some s ∧ s ≠ "".
Proof.
  unfold truthy_str. destruct o as [s|].
  - rewrite negb_true_iff, bool_decide_eq_false. split.
    + intros Hs. by exists s.
    + by intros (s' & [= <-] & Hs).
  - split; [done|]. by intros (s & Hs & _).
Qed.

(** X19: with no store configured the diagnostics route never reports a
    connection: whatever the environment, it answers "Not Connected" with
    an empty list of collections, and changes nothing.  It reports an
    environment variable as set exactly when the variable is present and
    not the empty string. *)
Theorem test_database_reports_no_connection (w : world) :
  (test_database w).2 = w ∧
  field (test_database w).1 "connection_status" = VStr "Not Connected" ∧
  field (test_database w).1 "collections" = VList [] ∧
  field (test_database w).1 "database"
    = VStr "⚠️  Available but not initialized" ∧
  (field (test_database w).1 "database_url" = VStr "✅ Set"
   ↔ ∃ s, environ w !! "DATABASE_URL" = Some s ∧ s ≠ "") ∧
  (field (test_database w).1 "database_name" = VStr "✅ Set"
   ↔ ∃ s, environ w !! "DATABASE_NAME" = Some s ∧ s ≠ "").
Proof.
  repeat split; try reflexivity.
  all: rewrite <-truthy_str_spec; fold (getenv_truthy w "DATABASE_URL");
    fold (getenv_truthy w "DATABASE_NAME").
  all: unfold test_database, field, dict_get; simpl.
  all: by destruct (getenv_truthy w _).
Qed.

(** ** What every stored record carries *)

(** A property of records that every new record has holds of all records
    of a store that started empty. *)
Lemma served_records_all (P : doc → Prop) rs w :
  (∀ c data w, P (new_record c data w)) →
  empty_store w →
  ∀ c d, d ∈ stored (serve rs w).2 c → P d.
Proof.
  intros Hnew He.
  assert (∀ w, (∀ c d, d ∈ stored w c → P d) →
               ∀ r c d, d ∈ stored (handle r w).2 c → P d) as Hstep.
  { intros w1 Hw1 r c d.
    destruct (handle_effect r w1) as [->|(c0 & data & ->)]; [by apply Hw1|].
    destruct (decide (c0 = c)) as [->|Hne].
    - rewrite create_document_stored.
      intros [Hd|Hd%list_elem_of_singleton]%elem_of_app;
        [by eapply Hw1|by subst].
    - rewrite create_document_stored_other by done. by apply Hw1. }
  assert (∀ c d, d ∈ stored w c → P d) as Hw.
  { intros c d. rewrite (empty_store_stored w c He). by intros ?%elem_of_nil. }
  clear He. revert w Hw. induction rs as [|r rs IH]; intros w Hw; [done|].
  intros c d. rewrite serve_cons. by apply IH, Hstep.
Qed.

(** X20: in every state reached from an empty store by serving requests,
    each stored record carries a datetime under [created_at] and under
    [updated_at] and a string under [_id]. *)
Theorem served_records_are_stamped (rs : list request) (w : world)
    (c : string) (d : doc) :
  empty_store w →
  d ∈ stored (serve rs w).2 c →
  (∃ t, dict_lookup d "created_at" = Some (VTime t)) ∧
  (∃ t, dict_lookup d "updated_at" = Some (VTime t)) ∧
  (∃ s, dict_lookup d "_id" = Some (VStr s)).
Proof.
  intros He. revert c d.
  apply (served_records_all (λ d, _ ∧ _ ∧ _)); [|done].
  intros c data w1. unfold new_record. repeat split; eexists.
  - rewrite !dict_lookup_set_ne by done. apply dict_lookup_set_eq.
  - rewrite dict_lookup_set_ne by done. apply dict_lookup_set_eq.
  - apply dict_lookup_set_eq.
Qed.

Lemma served_records_are_stamped_witness :
  (∃ t, dict_lookup (hd [] (stored after_doubt "doubt")) "created_at"
        = Some (VTime t)) ∧
  (∃ t, dict_lookup (hd [] (stored after_doubt "doubt")) "updated_at"
        = Some (VTime t)) ∧
  (∃ s, dict_lookup (hd [] (stored after_doubt "doubt")) "_id"
        = Some (VStr s)).
Proof.
  apply (served_records_are_stamped
           [PostChat (ChatRequest.Make "u1" "what is osmosis" None None)]
           fresh "doubt").
  - reflexivity.
  - vm_compute. apply list_elem_of_here.
Defined.
